(** * Toolbar: the element toolbar and its actions

    A shallow embedding of
    [frontend/lib/src/components/shared/Toolbar/Toolbar.tsx]: the two React
    function components [ToolbarAction] and [Toolbar], the element trees they
    return, and the click handler that [ToolbarAction] installs on its
    button.

    Rendering is a pure function from props (and the ambient values obtained
    through hooks) to an element tree.  Callbacks of type [() => void] act on
    the state of the host application; they are modelled as transformers of
    an abstract [World]. *)

From Stdlib Require Import String List Bool ZArith Lia.
Import ListNotations.

Local Open Scope string_scope.
Local Open Scope Z_scope.

(** ** JavaScript values as the component uses them *)

(** Truthiness, as tested by [&&], [||], [?:] and [if]. *)
Class Truthy (A : Type) : Type := truthy : A -> bool.

#[export] Instance Truthy_bool : Truthy bool := fun b => b.

(** The empty string is the only falsy string. *)
#[export] Instance Truthy_string : Truthy string :=
  fun s => negb (String.eqb s "").

(** An optional prop is [undefined] ([None], falsy) or carries a value. *)
#[export] Instance Truthy_option {A : Type} `{Truthy A} : Truthy (option A) :=
  fun o => match o with
           | Some a => truthy a
           | None => false
           end.

(** [a || b] *)
Definition js_or {A : Type} `{Truthy A} (a b : A) : A :=
  if truthy a then a else b.

(** [a ?? b], for [a] of type [T | undefined] *)
Definition js_nullish {A : Type} (a : option A) (b : A) : A :=
  match a with
  | Some v => v
  | None => b
  end.

(** What a JSX expression slot [{...}] may hold in this file: the falsy left
    operand of an [&&] chain ([undefined], [false], a string) or an
    element. *)
Inductive ReactNode (E : Type) : Type :=
| JsUndefined
| JsBoolean (b : bool)
| JsString (s : string)
| JsElement (e : E).

Arguments JsUndefined {E}.
Arguments JsBoolean {E} b.
Arguments JsString {E} s.
Arguments JsElement {E} e.

(** What React puts in the document for a slot. *)
Inductive Rendered (E : Type) : Type :=
| TextNode (s : string)
| ElementNode (e : E).

Arguments TextNode {E} s.
Arguments ElementNode {E} e.

(** React renders nothing for [undefined], booleans and the empty string. *)
Definition renderNode {E : Type} (n : ReactNode E) : list (Rendered E) :=
  match n with
  | JsUndefined => []
  | JsBoolean _ => []
  | JsString s => if truthy s then [TextNode s] else []
  | JsElement e => [ElementNode e]
  end.

Definition renderNodes {E : Type} (ns : list (ReactNode E))
  : list (Rendered E) :=
  flat_map renderNode ns.

(** The elements among the rendered nodes. *)
Definition elementsOf {E : Type} (rs : list (Rendered E)) : list E :=
  flat_map (fun r => match r with
                     | ElementNode e => [e]
                     | TextNode _ => []
                     end) rs.

(** What a render can throw. *)
Inductive RenderError : Type :=
| MissingContext.

(** The outcome of calling a hook or a function component. *)
Inductive Outcome (A : Type) : Type :=
| Returns (a : A)
| Throws (e : RenderError).

Arguments Returns {A} a.
Arguments Throws {A} e.

(** ** Imported names *)

(** [EmotionIcon]: the two icons this file imports from
    [@emotion-icons/material-outlined], and any other icon a caller passes. *)
Inductive EmotionIcon : Type :=
| Fullscreen
| FullscreenExit
| OtherIcon (name : string).

#[export] Instance Truthy_EmotionIcon : Truthy EmotionIcon := fun _ => true.

(** [Placement] and [BaseButtonKind]: the members used here. *)
Inductive Placement : Type := TOP.
Inductive BaseButtonKind : Type := ELEMENT_TOOLBAR.

(** [EmotionTheme]: the one field read here, [theme.fontSizes.sm]. *)
Record EmotionTheme : Type := { fontSizes_sm : string }.

(** The click event handed to a React handler; [stopPropagation] is its only
    method used here. *)
Record SyntheticEvent : Type := { propagationStopped : bool }.

Definition stopPropagation (event : SyntheticEvent) : SyntheticEvent :=
  {| propagationStopped := true |}.

Section Model.

(** The host application state that callbacks act on. *)
Context {World : Type}.

(** [StyledComponent<any, any, any>]: an opaque styling handle. *)
Context {StyledComponent : Type}.

(** [() => void] *)
Definition Callback : Type := World -> World.

(** A function value is always truthy. *)
#[export] Instance Truthy_Callback : Truthy Callback := fun _ => true.

(** [event => { ... }]: runs against the event and the world. *)
Definition EventHandler : Type :=
  SyntheticEvent -> World -> SyntheticEvent * World.

(** *** ToolbarAction *)

(** [interface ToolbarActionProps].  [onClick] is declared required; the
    handler nevertheless tests it, so it may be absent here. *)
Record ToolbarActionProps : Type := {
  label : string;
  icon : option EmotionIcon;
  show_label : option bool;
  onClick : option Callback
}.

Record StreamlitMarkdownProps : Type := {
  source : string;
  allowHTML : bool;
  style_fontSize : string
}.

Record IconProps : Type := {
  icon_content : EmotionIcon;
  icon_size : string;
  icon_testid : string
}.

(** The two kinds of element placed inside the button. *)
Inductive ButtonChild : Type :=
| IconElement (p : IconProps)
| SpanElement (text : string).

Record ButtonProps : Type := {
  button_onClick : EventHandler;
  button_kind : BaseButtonKind;
  aria_label : string;
  button_children : list (ReactNode ButtonChild)
}.

Record TooltipProps : Type := {
  content : StreamlitMarkdownProps;
  placement : Placement;
  onMouseEnterDelay : Z;
  inline : bool;
  tooltip_child : ButtonProps
}.

(** [<div data-testid=...> <Tooltip ...> ... </Tooltip> </div>] *)
Record ToolbarActionElement : Type := {
  action_testid : string;
  action_tooltip : TooltipProps
}.

(** The arrow function given to [Button] as [onClick] (lines 71-76). *)
Definition handleClick (onClick : option Callback) : EventHandler :=
  fun event world =>
    (* if (onClick) { onClick() } *)
    let world' := match onClick with
                  | Some f => f world
                  | None => world
                  end in
    (* event.stopPropagation() *)
    (stopPropagation event, world').

Definition ToolbarAction (theme : EmotionTheme) (props : ToolbarActionProps)
  : ToolbarActionElement :=
  let displayLabel := if truthy (show_label props) then label props else "" in
  {| action_testid := "stElementToolbarButton";
     action_tooltip :=
       {| content := {| source := label props;
                        allowHTML := false;
                        style_fontSize := fontSizes_sm theme |};
          placement := TOP;
          onMouseEnterDelay := 1000;
          inline := true;
          tooltip_child :=
            {| button_onClick := handleClick (onClick props);
               button_kind := ELEMENT_TOOLBAR;
               aria_label := label props;
               button_children :=
                 [ (* icon && <Icon ... /> *)
                   match icon props with
                   | Some i =>
                       JsElement
                         (IconElement
                            {| icon_content := i;
                               icon_size := "md";
                               icon_testid := "stElementToolbarButtonIcon" |})
                   | None => JsUndefined
                   end;
                   (* displayLabel && <span>{displayLabel}</span> *)
                   if truthy displayLabel
                   then JsElement (SpanElement displayLabel)
                   else JsString displayLabel ] |} |} |}.

(** *** Toolbar *)

(** [interface ToolbarProps], with [children] from
    [React.PropsWithChildren]. *)
Inductive ToolbarChild : Type :=
| ActionChild (p : ToolbarActionProps)
| OtherChild (name : string).

Record ToolbarProps : Type := {
  onExpand : option Callback;
  onCollapse : option Callback;
  isFullScreen : option bool;
  locked : option bool;
  children : list (ReactNode ToolbarChild);
  target : option StyledComponent;
  disableFullscreenMode : option bool
}.

(** Modelled from the spec: the value type of [ElementFullscreenContext],
    whose declaration is not among the sources.  The provider exposes
    [{ expanded: boolean, expand: () => void, collapse: () => void }]. *)
Record ElementFullscreenContextProps : Type := {
  expanded : bool;
  expand : Callback;
  collapse : Callback
}.

(** Modelled from the spec: the hook [useRequiredContext], whose
    definition is not among the sources.  It yields the value of the
    nearest provider; with no provider in the tree it raises instead of
    defaulting.  The argument is what the enclosing tree provides. *)
Definition useRequiredContext {T : Type} (provided : option T) : Outcome T :=
  match provided with
  | Some value => Returns value
  | None => Throws MissingContext
  end.

(** [<StyledToolbar>]: the [{children}] slot and the two conditional
    slots after it. *)
Record StyledToolbarElement : Type := {
  children_slot : list (ReactNode ToolbarChild);
  expand_slot : ReactNode ToolbarActionProps;
  collapse_slot : ReactNode ToolbarActionProps
}.

Record StyledToolbarWrapperElement : Type := {
  className : string;
  data_testid : string;
  wrapper_locked : bool;
  wrapper_target : option StyledComponent;
  wrapper_child : StyledToolbarElement
}.

(** [const finalOnExpand = onExpand || expand] *)
Definition finalOnExpand (props : ToolbarProps)
           (ctx : ElementFullscreenContextProps) : option Callback :=
  js_or (onExpand props) (Some (expand ctx)).

(** [const finalOnCollapse = onCollapse || collapse] *)
Definition finalOnCollapse (props : ToolbarProps)
           (ctx : ElementFullscreenContextProps) : option Callback :=
  js_or (onCollapse props) (Some (collapse ctx)).

(** [const finalIsFullScreen = isFullScreen ?? isFullScreenDefault] *)
Definition finalIsFullScreen (props : ToolbarProps)
           (ctx : ElementFullscreenContextProps) : bool :=
  js_nullish (isFullScreen props) (expanded ctx).

(** Lines 131-137:
    [finalOnExpand && !disableFullscreenMode && !finalIsFullScreen && (...)] *)
Definition expandSlot (finalOnExpand : option Callback)
           (disableFullscreenMode : option bool) (finalIsFullScreen : bool)
  : ReactNode ToolbarActionProps :=
  match finalOnExpand with
  | None => JsUndefined
  | Some f =>
      if negb (truthy disableFullscreenMode) then
        if negb finalIsFullScreen then
          JsElement {| label := "Fullscreen";
                       icon := Some Fullscreen;
                       show_label := None;
                       onClick := Some (fun world => f world) |}
        else JsBoolean false
      else JsBoolean false
  end.

(** Lines 138-144:
    [finalOnCollapse && !disableFullscreenMode && finalIsFullScreen && (...)] *)
Definition collapseSlot (finalOnCollapse : option Callback)
           (disableFullscreenMode : option bool) (finalIsFullScreen : bool)
  : ReactNode ToolbarActionProps :=
  match finalOnCollapse with
  | None => JsUndefined
  | Some f =>
      if negb (truthy disableFullscreenMode) then
        if finalIsFullScreen then
          JsElement {| label := "Close fullscreen";
                       icon := Some FullscreenExit;
                       show_label := None;
                       onClick := Some (fun world => f world) |}
        else JsBoolean false
      else JsBoolean false
  end.

(** The component.  [provided] is the value of the nearest
    [ElementFullscreenContext] provider, if there is one. *)
Definition Toolbar (props : ToolbarProps)
           (provided : option ElementFullscreenContextProps)
  : Outcome StyledToolbarWrapperElement :=
  match useRequiredContext provided with
  | Throws e => Throws e
  | Returns ctx =>
      let finalOnExpand := finalOnExpand props ctx in
      let finalOnCollapse := finalOnCollapse props ctx in
      let finalIsFullScreen := finalIsFullScreen props ctx in
      Returns
        {| className := "stElementToolbar";
           data_testid := "stElementToolbar";
           (* locked || finalIsFullScreen *)
           wrapper_locked := if truthy (locked props) then true
                             else finalIsFullScreen;
           wrapper_target := target props;
           wrapper_child :=
             {| children_slot := children props;
                expand_slot :=
                  expandSlot finalOnExpand (disableFullscreenMode props)
                             finalIsFullScreen;
                collapse_slot :=
                  collapseSlot finalOnCollapse (disableFullscreenMode props)
                               finalIsFullScreen |} |}
  end.

(** The built-in fullscreen actions that end up in the document: what
    React renders for the two conditional slots. *)
Definition builtinActions (t : StyledToolbarElement)
  : list ToolbarActionProps :=
  elementsOf (renderNodes [expand_slot t; collapse_slot t]).

(** *** Event dispatch *)

(** The bubbling phase of a click, as the browser and React run it (this
    is platform behaviour, not code of Toolbar.tsx): the handlers on the
    path from the clicked element outwards run in turn, and the handlers
    of the remaining ancestors are skipped once propagation has been
    stopped. *)
Fixpoint bubble (path : list EventHandler) (event : SyntheticEvent)
         (world : World) : SyntheticEvent * World :=
  match path with
  | [] => (event, world)
  | handler :: ancestors =>
      let '(event', world') := handler event world in
      if propagationStopped event' then (event', world')
      else bubble ancestors event' world'
  end.

(** A callback instrumented with an invocation counter: every call adds
    one to the count carried next to the world. *)
Definition counted (f : Callback) : nat * World -> nat * World :=
  fun s => (S (fst s), f (snd s)).

(** *** Observations on the rendered trees *)

(** The button that [ToolbarAction] renders. *)
Definition buttonOf (el : ToolbarActionElement) : ButtonProps :=
  tooltip_child (action_tooltip el).

(** The text a user sees inside the button: text nodes and the text of
    [<span>] elements. *)
Definition visibleText (button : ButtonProps) : list string :=
  flat_map (fun r => match r with
                     | TextNode s => [s]
                     | ElementNode (SpanElement text) => [text]
                     | ElementNode (IconElement _) => []
                     end)
           (renderNodes (button_children button)).

(** The icons a user sees inside the button. *)
Definition visibleIcons (button : ButtonProps) : list EmotionIcon :=
  flat_map (fun r => match r with
                     | ElementNode (IconElement p) => [icon_content p]
                     | ElementNode (SpanElement _) => []
                     | TextNode _ => []
                     end)
           (renderNodes (button_children button)).

End Model.

#[export] Existing Instance Truthy_Callback.

(** ** The rendering rule as the specification words it *)

Inductive FullscreenAction : Type :=
| EnterFullscreen
| ExitFullscreen.

(** The three branches, in order: enter when an effective expand callback
    exists, fullscreen mode is not disabled and the element is not
    fullscreen; else exit when an effective collapse callback exists,
    fullscreen mode is not disabled and the element is fullscreen; else
    neither. *)
Definition three_branch_rule
           (expandExists collapseExists disabled fullscreen : bool)
  : option FullscreenAction :=
  if expandExists && negb disabled && negb fullscreen then Some EnterFullscreen
  else if collapseExists && negb disabled && fullscreen then Some ExitFullscreen
  else None.

(** The labels of the actions the rule asks for. *)
Definition ruleLabels (choice : option FullscreenAction) : list string :=
  match choice with
  | Some EnterFullscreen => ["Fullscreen"]
  | Some ExitFullscreen => ["Close fullscreen"]
  | None => []
  end.

(** Modelled from the spec: the default trigger delay of the [Tooltip]
    component, whose definition is not among the sources; 200ms according to
    the specification and to the comment at lines 65-66 of Toolbar.tsx. *)
Definition defaultMouseEnterDelay : Z := 200.

(** ** Sample inputs *)

Module Sample.

Definition theme : EmotionTheme := {| fontSizes_sm := "14px" |}.

(** A provider whose element is not expanded; [expand] adds 1 and
    [collapse] adds 10 to a counter world. *)
Definition provider : @ElementFullscreenContextProps nat :=
  {| expanded := false;
     expand := fun n => (n + 1)%nat;
     collapse := fun n => (n + 10)%nat |}.

(** [<Toolbar />]: no prop given. *)
Definition noProps : @ToolbarProps nat unit :=
  {| onExpand := None;
     onCollapse := None;
     isFullScreen := None;
     locked := None;
     children := [];
     target := None;
     disableFullscreenMode := None |}.

(** [<Toolbar isFullScreen onCollapse={...} />] *)
Definition fullscreenProps : @ToolbarProps nat unit :=
  {| onExpand := None;
     onCollapse := Some (fun n => (n + 100)%nat);
     isFullScreen := Some true;
     locked := None;
     children := [];
     target := None;
     disableFullscreenMode := Some false |}.

(** [<ToolbarAction label="" show_label onClick={...} />] *)
Definition emptyLabel : @ToolbarActionProps nat :=
  {| label := "";
     icon := None;
     show_label := Some true;
     onClick := Some S |}.

(** [<Toolbar isFullScreen={false} onExpand={...} onCollapse={...} />]:
    nothing is left for the provider to supply. *)
Definition explicitProps : @ToolbarProps nat unit :=
  {| onExpand := Some (fun n => (n + 2)%nat);
     onCollapse := Some (fun n => (n + 20)%nat);
     isFullScreen := Some false;
     locked := None;
     children := [];
     target := None;
     disableFullscreenMode := None |}.

(** A provider whose element is expanded. *)
Definition expandedProvider : @ElementFullscreenContextProps nat :=
  {| expanded := true;
     expand := fun n => (n + 3)%nat;
     collapse := fun n => (n + 30)%nat |}.

End Sample.

(** ** Properties *)

Section Properties.

Context {World : Type} {StyledComponent : Type}.

(** *** Auxiliary facts *)

(** Under a provider [Toolbar] returns, and the tree is this one. *)
Lemma Toolbar_provided
      (props : @ToolbarProps World StyledComponent)
      (ctx : @ElementFullscreenContextProps World) :
  Toolbar props (Some ctx) =
  Returns
    {| className := "stElementToolbar";
       data_testid := "stElementToolbar";
       wrapper_locked := if truthy (locked props) then true
                         else finalIsFullScreen props ctx;
       wrapper_target := target props;
       wrapper_child :=
         {| children_slot := children props;
            expand_slot :=
              expandSlot (finalOnExpand props ctx)
                         (disableFullscreenMode props)
                         (finalIsFullScreen props ctx);
            collapse_slot :=
              collapseSlot (finalOnCollapse props ctx)
                           (disableFullscreenMode props)
                           (finalIsFullScreen props ctx) |} |}.
Proof. reflexivity. Qed.

(** What the two conditional slots render, for resolved values of any
    shape. *)
Lemma slots_follow_rule (fe fc : option (@Callback World))
      (d : option bool) (fs : bool) :
  map label
      (elementsOf (renderNodes [expandSlot fe d fs; collapseSlot fc d fs]))
  = ruleLabels (three_branch_rule (truthy fe) (truthy fc) (truthy d) fs).
Proof.
  destruct fe, fc, d as [[|]|], fs; reflexivity.
Qed.

Lemma slots_at_most_one (fe fc : option (@Callback World))
      (d : option bool) (fs : bool) :
  (length (elementsOf (renderNodes [expandSlot fe d fs; collapseSlot fc d fs]))
   <= 1)%nat.
Proof.
  destruct fe, fc, d as [[|]|], fs; simpl; lia.
Qed.

Lemma slots_disabled (fe fc : option (@Callback World)) (fs : bool) :
  elementsOf (renderNodes [expandSlot fe (Some true) fs;
                           collapseSlot fc (Some true) fs]) = [].
Proof.
  destruct fe, fc; reflexivity.
Qed.

(** *** The fullscreen actions of [Toolbar] *)

(** C1.  Whatever the props and the provider's value, [Toolbar] returns a
    tree whose built-in fullscreen actions are exactly those the
    three-branch rule picks from the resolved values: the labels agree
    with the rule, there is never more than one action, and with
    [disableFullscreenMode] true there is none.  The same holds of the two
    conditional slots for every combination of resolved values, an absent
    effective callback included. *)
Theorem Toolbar_three_branch_rule :
  (forall (props : @ToolbarProps World StyledComponent)
          (ctx : @ElementFullscreenContextProps World),
      exists el,
        Toolbar props (Some ctx) = Returns el
        /\ map label (builtinActions (wrapper_child el))
           = ruleLabels
               (three_branch_rule (truthy (finalOnExpand props ctx))
                                  (truthy (finalOnCollapse props ctx))
                                  (truthy (disableFullscreenMode props))
                                  (finalIsFullScreen props ctx))
        /\ (length (builtinActions (wrapper_child el)) <= 1)%nat)
  /\ (forall (oe oc : option Callback) (ifs lk : option bool)
             (ch : list (ReactNode ToolbarChild))
             (tg : option StyledComponent)
             (ctx : @ElementFullscreenContextProps World),
        exists el,
          Toolbar {| onExpand := oe; onCollapse := oc; isFullScreen := ifs;
                     locked := lk; children := ch; target := tg;
                     disableFullscreenMode := Some true |} (Some ctx)
          = Returns el
          /\ builtinActions (wrapper_child el) = [])
  /\ (forall (fe fc : option (@Callback World)) (d : option bool) (fs : bool),
        let acts :=
          elementsOf (renderNodes [expandSlot fe d fs; collapseSlot fc d fs]) in
        map label acts
        = ruleLabels (three_branch_rule (truthy fe) (truthy fc) (truthy d) fs)
        /\ (length acts <= 1)%nat)
  /\ (forall (fe fc : option (@Callback World)) (fs : bool),
        elementsOf (renderNodes [expandSlot fe (Some true) fs;
                                 collapseSlot fc (Some true) fs]) = []).
Proof.
  split; [|split; [|split]].
  - intros props ctx. eexists. split; [apply Toolbar_provided|].
    unfold builtinActions; cbn [wrapper_child expand_slot collapse_slot].
    split; [apply slots_follow_rule | apply slots_at_most_one].
  - intros oe oc ifs lk ch tg ctx. eexists. split; [apply Toolbar_provided|].
    unfold builtinActions;
      cbn [wrapper_child expand_slot collapse_slot disableFullscreenMode].
    apply slots_disabled.
  - intros fe fc d fs acts. subst acts.
    split; [apply slots_follow_rule | apply slots_at_most_one].
  - apply slots_disabled.
Qed.

(** C3.  With no provider of the fullscreen context in the tree the render
    of [Toolbar] throws, whatever its props; under a provider it always
    returns an element, so the missing context is the only error the render
    produces. *)
Theorem Toolbar_only_fails_without_context :
  (forall props : @ToolbarProps World StyledComponent,
      Toolbar props None = Throws MissingContext)
  /\ (forall (props : @ToolbarProps World StyledComponent)
             (ctx : @ElementFullscreenContextProps World),
         exists el, Toolbar props (Some ctx) = Returns el).
Proof.
  split.
  - intros props. reflexivity.
  - intros props ctx. eexists. apply Toolbar_provided.
Qed.

(** C9.  The context is read before anything else and whatever the props
    are: [Toolbar] throws exactly when the hook does, and in particular it
    throws outside a provider even when [onExpand], [onCollapse] and
    [isFullScreen] are all given explicitly. *)
Theorem Toolbar_reads_context_unconditionally :
  (forall (props : @ToolbarProps World StyledComponent)
          (provided : option (@ElementFullscreenContextProps World)),
      match useRequiredContext provided with
      | Throws e => Toolbar props provided = Throws e
      | Returns _ => exists el, Toolbar props provided = Returns el
      end)
  /\ (forall (f g : @Callback World) (b : bool) (lk d : option bool)
             (ch : list (ReactNode ToolbarChild))
             (tg : option StyledComponent),
         Toolbar {| onExpand := Some f; onCollapse := Some g;
                    isFullScreen := Some b; locked := lk; children := ch;
                    target := tg; disableFullscreenMode := d |} None
         = Throws MissingContext).
Proof.
  split.
  - intros props [ctx|]; cbn [useRequiredContext].
    + eexists. apply Toolbar_provided.
    + reflexivity.
  - reflexivity.
Qed.

(** C4.  The effective callbacks and the effective fullscreen flag are the
    explicit props when these are given and the provider's values only
    otherwise; an explicit [isFullScreen], [false] included, wins over the
    provider's [expanded].  The tree that [Toolbar] returns is built from
    the values so resolved. *)
Theorem explicit_props_take_precedence
        (props : @ToolbarProps World StyledComponent)
        (ctx : @ElementFullscreenContextProps World) :
  finalOnExpand props ctx
  = match onExpand props with
    | Some f => Some f
    | None => Some (expand ctx)
    end
  /\ finalOnCollapse props ctx
     = match onCollapse props with
       | Some f => Some f
       | None => Some (collapse ctx)
       end
  /\ finalIsFullScreen props ctx
     = match isFullScreen props with
       | Some b => b
       | None => expanded ctx
       end
  /\ exists el,
      Toolbar props (Some ctx) = Returns el
      /\ expand_slot (wrapper_child el)
         = expandSlot (match onExpand props with
                       | Some f => Some f
                       | None => Some (expand ctx)
                       end)
                      (disableFullscreenMode props)
                      (match isFullScreen props with
                       | Some b => b
                       | None => expanded ctx
                       end)
      /\ collapse_slot (wrapper_child el)
         = collapseSlot (match onCollapse props with
                         | Some f => Some f
                         | None => Some (collapse ctx)
                         end)
                        (disableFullscreenMode props)
                        (match isFullScreen props with
                         | Some b => b
                         | None => expanded ctx
                         end)
      /\ wrapper_locked el
         = (truthy (locked props)
            || match isFullScreen props with
               | Some b => b
               | None => expanded ctx
               end)%bool.
Proof.
  assert (He : finalOnExpand props ctx
               = match onExpand props with
                 | Some f => Some f
                 | None => Some (expand ctx)
                 end)
    by (unfold finalOnExpand, js_or; destruct (onExpand props); reflexivity).
  assert (Hc : finalOnCollapse props ctx
               = match onCollapse props with
                 | Some f => Some f
                 | None => Some (collapse ctx)
                 end)
    by (unfold finalOnCollapse, js_or; destruct (onCollapse props);
        reflexivity).
  assert (Hf : finalIsFullScreen props ctx
               = match isFullScreen props with
                 | Some b => b
                 | None => expanded ctx
                 end) by reflexivity.
  repeat split; try assumption.
  eexists. split; [apply Toolbar_provided|].
  cbn [wrapper_child expand_slot collapse_slot wrapper_locked].
  rewrite He, Hc, Hf.
  split; [reflexivity|]. split; [reflexivity|].
  destruct (truthy (locked props)); reflexivity.
Qed.

(** C5.  When fullscreen mode is not disabled, the resolved fullscreen flag
    is [fs] and the callback for leaving that state is defined (expand when
    not fullscreen, collapse when fullscreen), [Toolbar] renders exactly one
    built-in action: the one labelled "Fullscreen" when [fs] is false, the
    one labelled "Close fullscreen" when [fs] is true. *)
Theorem exactly_one_fullscreen_action
        (props : @ToolbarProps World StyledComponent)
        (ctx : @ElementFullscreenContextProps World)
        (fs : bool) (f : @Callback World) :
  truthy (disableFullscreenMode props) = false ->
  finalIsFullScreen props ctx = fs ->
  (if fs then finalOnCollapse props ctx else finalOnExpand props ctx)
  = Some f ->
  exists el,
    Toolbar props (Some ctx) = Returns el
    /\ builtinActions (wrapper_child el)
       = [ if fs
           then {| label := "Close fullscreen";
                   icon := Some FullscreenExit;
                   show_label := None;
                   onClick := Some f |}
           else {| label := "Fullscreen";
                   icon := Some Fullscreen;
                   show_label := None;
                   onClick := Some f |} ].
Proof.
  intros Hd Hfs Hf.
  eexists. split; [apply Toolbar_provided|].
  unfold builtinActions; cbn [wrapper_child expand_slot collapse_slot].
  rewrite Hfs.
  unfold expandSlot, collapseSlot. rewrite Hd.
  destruct fs.
  - rewrite Hf. destruct (finalOnExpand props ctx); reflexivity.
  - rewrite Hf. destruct (finalOnCollapse props ctx); reflexivity.
Qed.

(** C2, as the code has it.  An absent [onExpand] (respectively
    [onCollapse]) prop does not remove the action: the provider's [expand]
    (respectively [collapse]) takes its place, and the enter (respectively
    exit) action is rendered exactly when fullscreen mode is not disabled
    and the element is not (respectively is) fullscreen.  A slot renders
    nothing when no effective callback is left.  A missing icon leaves a
    text-only button when the label is displayed, and an empty button
    otherwise. *)
Theorem absent_props_degrade :
  (forall (oc : option Callback) (ifs lk d : option bool)
          (ch : list (ReactNode ToolbarChild)) (tg : option StyledComponent)
          (ctx : @ElementFullscreenContextProps World),
      exists el,
        Toolbar {| onExpand := None; onCollapse := oc; isFullScreen := ifs;
                   locked := lk; children := ch; target := tg;
                   disableFullscreenMode := d |} (Some ctx)
        = Returns el
        /\ elementsOf (renderNode (expand_slot (wrapper_child el)))
           = if negb (truthy d) && negb (js_nullish ifs (expanded ctx))
             then [ {| label := "Fullscreen";
                       icon := Some Fullscreen;
                       show_label := None;
                       onClick := Some (expand ctx) |} ]
             else [])
  /\ (forall (oe : option Callback) (ifs lk d : option bool)
             (ch : list (ReactNode ToolbarChild)) (tg : option StyledComponent)
             (ctx : @ElementFullscreenContextProps World),
         exists el,
           Toolbar {| onExpand := oe; onCollapse := None; isFullScreen := ifs;
                      locked := lk; children := ch; target := tg;
                      disableFullscreenMode := d |} (Some ctx)
           = Returns el
           /\ elementsOf (renderNode (collapse_slot (wrapper_child el)))
              = if negb (truthy d) && js_nullish ifs (expanded ctx)
                then [ {| label := "Close fullscreen";
                          icon := Some FullscreenExit;
                          show_label := None;
                          onClick := Some (collapse ctx) |} ]
                else [])
  /\ (forall (d : option bool) (fs : bool),
         renderNode (@expandSlot World None d fs) = []
         /\ renderNode (@collapseSlot World None d fs) = [])
  /\ (forall (theme : EmotionTheme) (l : string) (sl : option bool)
             (oc : option (@Callback World)),
         renderNodes
           (button_children
              (buttonOf (ToolbarAction theme {| label := l; icon := None;
                                                show_label := sl;
                                                onClick := oc |})))
         = if truthy sl && truthy l
           then [ElementNode (SpanElement l)]
           else []).
Proof.
  split; [|split; [|split]].
  - intros oc ifs lk d ch tg ctx. eexists. split; [apply Toolbar_provided|].
    cbn [wrapper_child expand_slot].
    unfold finalOnExpand, finalIsFullScreen, js_or, expandSlot.
    cbn [onExpand isFullScreen disableFullscreenMode].
    cbn [truthy Truthy_option].
    destruct (truthy d), (js_nullish ifs (expanded ctx)); reflexivity.
  - intros oe ifs lk d ch tg ctx. eexists. split; [apply Toolbar_provided|].
    cbn [wrapper_child collapse_slot].
    unfold finalOnCollapse, finalIsFullScreen, js_or, collapseSlot.
    cbn [onCollapse isFullScreen disableFullscreenMode].
    cbn [truthy Truthy_option].
    destruct (truthy d), (js_nullish ifs (expanded ctx)); reflexivity.
  - intros d fs. split; reflexivity.
  - intros theme l sl oc.
    unfold ToolbarAction, buttonOf, renderNodes.
    cbn [action_tooltip tooltip_child button_children label icon show_label
         flat_map renderNode app].
    destruct (truthy sl); cbn [andb].
    + destruct (truthy l) eqn:Hl; cbn [renderNode]; [reflexivity|].
      rewrite Hl. reflexivity.
    + reflexivity.
Qed.

(** C6.  A click on the button of a [ToolbarAction] that was given the
    callback [f] runs [f] once and then stops the propagation of the event:
    the handler leaves the world as one run of [f] leaves it and the event
    stopped; bubbling from the button reaches none of the ancestors'
    handlers; and a counter attached to [f] goes up by exactly one. *)
Theorem click_invokes_once_and_stops_propagation :
  (forall (theme : EmotionTheme) (l : string) (ic : option EmotionIcon)
          (sl : option bool) (f : @Callback World)
          (ancestors : list (@EventHandler World))
          (event : SyntheticEvent) (world : World),
      let button :=
        buttonOf (ToolbarAction theme {| label := l; icon := ic;
                                         show_label := sl;
                                         onClick := Some f |}) in
      button_onClick button event world = (stopPropagation event, f world)
      /\ propagationStopped (fst (button_onClick button event world)) = true
      /\ bubble (button_onClick button :: ancestors) event world
         = (stopPropagation event, f world))
  /\ (forall (theme : EmotionTheme) (l : string) (ic : option EmotionIcon)
             (sl : option bool) (f : @Callback World)
             (ancestors : list (@EventHandler (nat * World)))
             (event : SyntheticEvent) (n : nat) (world : World),
         let button :=
           buttonOf (ToolbarAction theme {| label := l; icon := ic;
                                            show_label := sl;
                                            onClick := Some (counted f) |}) in
         bubble (button_onClick button :: ancestors) event (n, world)
         = (stopPropagation event, (S n, f world))).
Proof.
  split.
  - intros theme l ic sl f ancestors event world button.
    repeat split.
  - intros theme l ic sl f ancestors event n world button.
    reflexivity.
Qed.

(** C7, as the code has it.  The accessible name of the button is the
    label whatever [show_label] is.  A visible text holding the label is
    rendered exactly when [show_label] is true and the label is not empty;
    in every other case the button shows the icon alone. *)
Theorem accessible_name_and_visible_label
        (theme : EmotionTheme) (props : @ToolbarActionProps World) :
  let button := buttonOf (ToolbarAction theme props) in
  aria_label button = label props
  /\ visibleText button
     = (if truthy (show_label props) && truthy (label props)
        then [label props]
        else [])
  /\ visibleIcons button
     = match icon props with
       | Some i => [i]
       | None => []
       end
  /\ renderNodes (button_children button)
     = app (match icon props with
            | Some i =>
                [ElementNode
                   (IconElement
                      {| icon_content := i;
                         icon_size := "md";
                         icon_testid := "stElementToolbarButtonIcon" |})]
            | None => []
            end)
           (if truthy (show_label props) && truthy (label props)
            then [ElementNode (SpanElement (label props))]
            else []).
Proof.
  destruct props as [l ic sl oc].
  unfold ToolbarAction, buttonOf, visibleText, visibleIcons, renderNodes.
  cbn [action_tooltip tooltip_child button_children aria_label
       label icon show_label flat_map].
  destruct (truthy sl); cbn [andb].
  - destruct (truthy l) eqn:Hl; cbn [renderNode]; [|rewrite Hl];
      destruct ic; repeat split.
  - destruct ic; repeat split.
Qed.

(** C8.  The tooltip of a [ToolbarAction] holds the label as the source of
    the markdown renderer with HTML switched off, at the theme's small font
    size, and it is triggered after 1000ms, longer than the default
    200ms. *)
Theorem tooltip_content_and_delay
        (theme : EmotionTheme) (props : @ToolbarActionProps World) :
  let tooltip := action_tooltip (ToolbarAction theme props) in
  content tooltip
  = {| source := label props;
       allowHTML := false;
       style_fontSize := fontSizes_sm theme |}
  /\ onMouseEnterDelay tooltip = 1000
  /\ defaultMouseEnterDelay < onMouseEnterDelay tooltip.
Proof.
  repeat split.
Qed.

(** C10.  With the empty string as label and [show_label] true no visible
    text is rendered, the children of the button are those rendered with
    [show_label] false, and the accessible name is the empty string. *)
Theorem empty_label_shows_no_text
        (theme : EmotionTheme) (ic : option EmotionIcon)
        (oc : option (@Callback World)) :
  let shown :=
    buttonOf (ToolbarAction theme {| label := ""; icon := ic;
                                     show_label := Some true;
                                     onClick := oc |}) in
  let hidden :=
    buttonOf (ToolbarAction theme {| label := ""; icon := ic;
                                     show_label := Some false;
                                     onClick := oc |}) in
  visibleText shown = []
  /\ button_children shown = button_children hidden
  /\ aria_label shown = "".
Proof.
  destruct ic; repeat split.
Qed.

End Properties.

(** ** The properties at sample inputs *)

(** Both halves of C5 on a counter world: outside fullscreen the bare
    [<Toolbar />] shows the one action "Fullscreen" bound to the provider's
    [expand]; in fullscreen, with an explicit [onCollapse], it shows the one
    action "Close fullscreen" bound to that callback. *)
Lemma exactly_one_fullscreen_action_witness :
  (exists el,
      Toolbar Sample.noProps (Some Sample.provider) = Returns el
      /\ builtinActions (wrapper_child el)
         = [ {| label := "Fullscreen";
                icon := Some Fullscreen;
                show_label := None;
                onClick := Some (expand Sample.provider) |} ])
  /\ (exists el,
         Toolbar Sample.fullscreenProps (Some Sample.provider) = Returns el
         /\ builtinActions (wrapper_child el)
            = [ {| label := "Close fullscreen";
                   icon := Some FullscreenExit;
                   show_label := None;
                   onClick := Some (fun n => (n + 100)%nat) |} ]).
Proof.
  split.
  - apply (exactly_one_fullscreen_action
             Sample.noProps Sample.provider false (expand Sample.provider));
      reflexivity.
  - apply (exactly_one_fullscreen_action
             Sample.fullscreenProps Sample.provider true
             (fun n => (n + 100)%nat));
      reflexivity.
Defined.

(** C2 as worded fails: [<Toolbar />] is given no [onExpand], and under a
    provider whose element is not expanded it still renders the "Fullscreen"
    action, bound to the provider's [expand]. *)
Lemma absent_onExpand_still_renders_counterexample :
  onExpand Sample.noProps = None
  /\ exists el,
      Toolbar Sample.noProps (Some Sample.provider) = Returns el
      /\ elementsOf (renderNode (expand_slot (wrapper_child el)))
         = [ {| label := "Fullscreen";
                icon := Some Fullscreen;
                show_label := None;
                onClick := Some (expand Sample.provider) |} ]
      /\ map label (builtinActions (wrapper_child el)) = ["Fullscreen"].
Proof.
  split; [reflexivity|].
  eexists. split; [reflexivity|]. split; reflexivity.
Qed.

(** C7 as worded fails: [show_label] is true, yet with the empty label the
    button renders no text at all. *)
Lemma show_label_true_without_text_counterexample :
  truthy (show_label Sample.emptyLabel) = true
  /\ visibleText (buttonOf (ToolbarAction Sample.theme Sample.emptyLabel)) = []
  /\ renderNodes
       (button_children
          (buttonOf (ToolbarAction Sample.theme Sample.emptyLabel))) = [].
Proof.
  repeat split.
Qed.

(** End to end on the counter world: React renders the built-in action of
    [<Toolbar />], the user clicks its button, and the click bubbles towards
    an ancestor whose handler would add 1000.  The provider's [expand] ran
    once, the ancestor's handler did not run, and the event is stopped. *)
Example click_on_builtin_action :
  let ancestor : @EventHandler nat :=
    fun event n => (event, (n + 1000)%nat) in
  match Toolbar Sample.noProps (Some Sample.provider) with
  | Returns el =>
      map (fun props =>
             bubble [button_onClick
                       (buttonOf (ToolbarAction Sample.theme props));
                     ancestor]
                    {| propagationStopped := false |} 0%nat)
          (builtinActions (wrapper_child el))
  | Throws _ => []
  end
  = [({| propagationStopped := true |}, 1%nat)].
Proof. reflexivity. Qed.

(** Without the button's handler on the path the same click reaches the
    ancestor. *)
Example click_elsewhere_reaches_ancestor :
  let ancestor : @EventHandler nat :=
    fun event n => (event, (n + 1000)%nat) in
  bubble [ancestor] {| propagationStopped := false |} 0%nat
  = ({| propagationStopped := false |}, 1000%nat).
Proof. reflexivity. Qed.

(** ** Further properties of the two components *)

Section Components.

Context {World : Type} {StyledComponent : Type}.

(** The built-in actions under a provider, spelled out: none when
    fullscreen mode is disabled, otherwise the single action for leaving
    the current state, bound to the explicit callback if there is one and
    to the provider's otherwise. *)
Lemma builtinActions_provided
      (props : @ToolbarProps World StyledComponent)
      (ctx : @ElementFullscreenContextProps World) :
  exists el,
    Toolbar props (Some ctx) = Returns el
    /\ builtinActions (wrapper_child el)
       = if truthy (disableFullscreenMode props) then []
         else [ if finalIsFullScreen props ctx
                then {| label := "Close fullscreen";
                        icon := Some FullscreenExit;
                        show_label := None;
                        onClick := Some (js_nullish (onCollapse props)
                                                    (collapse ctx)) |}
                else {| label := "Fullscreen";
                        icon := Some Fullscreen;
                        show_label := None;
                        onClick := Some (js_nullish (onExpand props)
                                                    (expand ctx)) |} ].
Proof.
  eexists. split; [apply Toolbar_provided|].
  unfold builtinActions; cbn [wrapper_child expand_slot collapse_slot].
  unfold finalOnExpand, finalOnCollapse, js_or, expandSlot, collapseSlot.
  destruct (onExpand props), (onCollapse props),
    (truthy (disableFullscreenMode props)), (finalIsFullScreen props ctx);
    reflexivity.
Qed.

(** X1.  Under a provider and with fullscreen mode not disabled, [Toolbar]
    always renders exactly one built-in action, since the provider's
    callbacks stand in for absent props: "Close fullscreen" when the
    resolved flag is true, "Fullscreen" when it is false.  With fullscreen
    mode disabled it renders none. *)
Theorem provided_toolbar_shows_one_action_unless_disabled
        (props : @ToolbarProps World StyledComponent)
        (ctx : @ElementFullscreenContextProps World) :
  exists el,
    Toolbar props (Some ctx) = Returns el
    /\ map label (builtinActions (wrapper_child el))
       = (if truthy (disableFullscreenMode props) then []
          else [ if js_nullish (isFullScreen props) (expanded ctx)
                 then "Close fullscreen"
                 else "Fullscreen" ])
    /\ length (builtinActions (wrapper_child el))
       = if truthy (disableFullscreenMode props) then 0%nat else 1%nat.
Proof.
  destruct (builtinActions_provided props ctx) as [el [Hel Hacts]].
  exists el. split; [exact Hel|]. rewrite Hacts.
  unfold finalIsFullScreen.
  destruct (truthy (disableFullscreenMode props)),
    (js_nullish (isFullScreen props) (expanded ctx)); split; reflexivity.
Qed.

(** X2.  A click on the button of a rendered built-in action runs the
    callback resolved for that direction once and nothing else: the explicit
    [onExpand] or [onCollapse] when given, the provider's [expand] or
    [collapse] otherwise; an explicit callback replaces the provider's
    rather than running beside it.  The event is stopped. *)
Theorem click_on_builtin_runs_resolved_callback
        (props : @ToolbarProps World StyledComponent)
        (ctx : @ElementFullscreenContextProps World)
        (theme : EmotionTheme) (event : SyntheticEvent) (world : World) :
  exists el,
    Toolbar props (Some ctx) = Returns el
    /\ map (fun action =>
              button_onClick (buttonOf (ToolbarAction theme action))
                             event world)
           (builtinActions (wrapper_child el))
       = if truthy (disableFullscreenMode props) then []
         else [ (stopPropagation event,
                 if js_nullish (isFullScreen props) (expanded ctx)
                 then match onCollapse props with
                      | Some g => g world
                      | None => collapse ctx world
                      end
                 else match onExpand props with
                      | Some f => f world
                      | None => expand ctx world
                      end) ].
Proof.
  destruct (builtinActions_provided props ctx) as [el [Hel Hacts]].
  exists el. split; [exact Hel|]. rewrite Hacts.
  unfold finalIsFullScreen.
  destruct (truthy (disableFullscreenMode props)),
    (js_nullish (isFullScreen props) (expanded ctx)),
    (onExpand props), (onCollapse props); reflexivity.
Qed.

(** X3.  Every built-in action that [Toolbar] emits renders, through
    [ToolbarAction], as an icon-only button: exactly one icon (the
    fullscreen or the fullscreen-exit icon, matching its label), no visible
    text, and the label as accessible name and as tooltip source. *)
Theorem builtin_actions_are_icon_only
        (props : @ToolbarProps World StyledComponent)
        (ctx : @ElementFullscreenContextProps World)
        (theme : EmotionTheme) :
  exists el,
    Toolbar props (Some ctx) = Returns el
    /\ Forall
         (fun action =>
            let rendered := ToolbarAction theme action in
            visibleText (buttonOf rendered) = []
            /\ visibleIcons (buttonOf rendered)
               = [ if String.eqb (label action) "Fullscreen"
                   then Fullscreen
                   else FullscreenExit ]
            /\ aria_label (buttonOf rendered) = label action
            /\ source (content (action_tooltip rendered)) = label action
            /\ (label action = "Fullscreen"
                \/ label action = "Close fullscreen"))
         (builtinActions (wrapper_child el)).
Proof.
  destruct (builtinActions_provided props ctx) as [el [Hel Hacts]].
  exists el. split; [exact Hel|]. rewrite Hacts.
  destruct (truthy (disableFullscreenMode props)); [constructor|].
  constructor; [|constructor].
  destruct (finalIsFullScreen props ctx); cbn; repeat split; auto.
Qed.

(** X4.  A [ToolbarAction] rendered without [onClick] still swallows the
    click: the world is left as it was, the event is stopped, and no handler
    of an ancestor runs. *)
Theorem click_without_callback_only_stops_propagation
        (theme : EmotionTheme) (l : string) (ic : option EmotionIcon)
        (sl : option bool) (ancestors : list (@EventHandler World))
        (event : SyntheticEvent) (world : World) :
  let button :=
    buttonOf (ToolbarAction theme {| label := l; icon := ic;
                                     show_label := sl;
                                     onClick := None |}) in
  button_onClick button event world = (stopPropagation event, world)
  /\ bubble (button_onClick button :: ancestors) event world
     = (stopPropagation event, world).
Proof.
  split; reflexivity.
Qed.

(** X5.  The handler keeps no state between clicks: a series of clicks on
    the same button, each with its own event, runs the callback once per
    click, whether or not an event arrives already stopped. *)
Theorem every_click_invokes_the_callback
        (theme : EmotionTheme) (l : string) (ic : option EmotionIcon)
        (sl : option bool) (f : @Callback World)
        (events : list SyntheticEvent) (world : World) :
  let button :=
    buttonOf (ToolbarAction theme {| label := l; icon := ic;
                                     show_label := sl;
                                     onClick := Some f |}) in
  fold_left (fun w event => snd (button_onClick button event w)) events world
  = Nat.iter (length events) f world.
Proof.
  cbn zeta. revert world.
  induction events as [|event events IH]; intros world.
  - reflexivity.
  - cbn [fold_left length]. rewrite Nat.iter_succ_r. apply IH.
Qed.

(** X6.  When [onExpand], [onCollapse] and [isFullScreen] are all given,
    the value of the provider has no influence on what [Toolbar] returns:
    any two providers yield the same tree. *)
Theorem explicit_props_ignore_provider_value
        (props : @ToolbarProps World StyledComponent)
        (ctx1 ctx2 : @ElementFullscreenContextProps World)
        (f g : @Callback World) (b : bool) :
  onExpand props = Some f ->
  onCollapse props = Some g ->
  isFullScreen props = Some b ->
  Toolbar props (Some ctx1) = Toolbar props (Some ctx2).
Proof.
  intros He Hc Hf.
  rewrite !Toolbar_provided.
  unfold finalOnExpand, finalOnCollapse, finalIsFullScreen, js_or.
  rewrite He, Hc, Hf. reflexivity.
Qed.

(** X7.  Whenever the "Close fullscreen" action is among the rendered
    built-in actions the wrapper is locked, whatever the [locked] prop
    says: an element shown in fullscreen never has a toolbar that hides. *)
Theorem exit_action_implies_locked
        (props : @ToolbarProps World StyledComponent)
        (ctx : @ElementFullscreenContextProps World)
        (el : @StyledToolbarWrapperElement World StyledComponent) :
  Toolbar props (Some ctx) = Returns el ->
  In "Close fullscreen" (map label (builtinActions (wrapper_child el))) ->
  wrapper_locked el = true.
Proof.
  intros Hel Hin.
  rewrite Toolbar_provided in Hel. injection Hel as <-.
  cbn [wrapper_locked wrapper_child] in *.
  unfold builtinActions in Hin.
  cbn [expand_slot collapse_slot] in Hin.
  destruct (finalIsFullScreen props ctx).
  - destruct (truthy (locked props)); reflexivity.
  - exfalso.
    destruct (finalOnExpand props ctx), (finalOnCollapse props ctx),
      (disableFullscreenMode props) as [[|]|];
      cbn in Hin; intuition discriminate.
Qed.

(** X8.  [locked] and [target] are styling only: two calls that differ in
    nothing but these props return the same inner toolbar, children and
    built-in actions alike, so a locked toolbar still offers its fullscreen
    action. *)
Theorem locked_and_target_are_styling_only
        (oe oc : option (@Callback World)) (ifs d lk1 lk2 : option bool)
        (ch : list (ReactNode ToolbarChild))
        (tg1 tg2 : option StyledComponent)
        (ctx : @ElementFullscreenContextProps World) :
  exists el1 el2,
    Toolbar {| onExpand := oe; onCollapse := oc; isFullScreen := ifs;
               locked := lk1; children := ch; target := tg1;
               disableFullscreenMode := d |} (Some ctx) = Returns el1
    /\ Toolbar {| onExpand := oe; onCollapse := oc; isFullScreen := ifs;
                  locked := lk2; children := ch; target := tg2;
                  disableFullscreenMode := d |} (Some ctx) = Returns el2
    /\ wrapper_child el1 = wrapper_child el2
    /\ children_slot (wrapper_child el1) = ch.
Proof.
  do 2 eexists.
  split; [apply Toolbar_provided|].
  split; [apply Toolbar_provided|].
  split; reflexivity.
Qed.


End Components.

(** X6 on the counter world: with all three props explicit, a collapsed and
    an expanded provider give the same tree. *)
Lemma explicit_props_ignore_provider_value_witness :
  Toolbar Sample.explicitProps (Some Sample.provider)
  = Toolbar Sample.explicitProps (Some Sample.expandedProvider).
Proof.
  apply (explicit_props_ignore_provider_value
           Sample.explicitProps Sample.provider Sample.expandedProvider
           (fun n => (n + 2)%nat) (fun n => (n + 20)%nat) false);
    reflexivity.
Defined.

(** X7 on the counter world: the fullscreen toolbar is locked although
    [locked] was not passed. *)
Lemma exit_action_implies_locked_witness :
  exists el,
    Toolbar Sample.fullscreenProps (Some Sample.provider) = Returns el
    /\ locked Sample.fullscreenProps = None
    /\ wrapper_locked el = true.
Proof.
  eexists. split; [reflexivity|]. split; [reflexivity|].
  apply (exit_action_implies_locked
           Sample.fullscreenProps Sample.provider _ eq_refl).
  left. reflexivity.
Defined.
